(** * File browser component: navigation and synchronisation state machine

    A shallow embedding of [src/app/app.component.ts] (the Angular
    [AppComponent]) together with the properties its specification states.

    - JavaScript strings are [string]; a character stands for one code unit
      below 256.
    - A JavaScript [number] that is finite is its exact value in [Q].  The only
      arithmetic the component performs is a comparison with 1024 or 10 and a
      division by 1024 of a value that is at least 1024; both are exact on
      IEEE doubles, so no rounding is lost by computing in [Q].
    - The component's fields, the requests handed to [HttpClient], the file
      [<input>] elements and the browser's object URLs form one [World];
      every method and every subscriber callback is a function
      [World -> World]. *)

From Stdlib Require Import ZArith QArith String Ascii List Bool Lia.
From Stdlib Require Import DecimalString.
From stdpp Require Import base option gmap.
Import ListNotations.

Local Open Scope string_scope.

(** ** JavaScript primitives used by the component *)

Module Js.

(** [ToBoolean] on a string: only the empty string is falsy. *)
Definition truthy_string (s : string) : bool :=
  match s with
  | EmptyString => false
  | String _ _ => true
  end.

(** [ToBoolean] on [string | null]. *)
Definition truthy (v : option string) : bool :=
  match v with
  | None => false
  | Some s => truthy_string s
  end.

(** [ToBoolean] on a finite number: zero is falsy. *)
Definition truthy_number (x : Q) : bool := negb (Qnum x =? 0)%Z.

(** [a ?? b]: the right operand only when the left one is null or
    undefined. *)
Definition nullish {A : Type} (a : option A) (b : A) : A :=
  match a with
  | Some v => v
  | None => b
  end.

(** White space and line terminators, as far as they fit in one byte:
    TAB, LF, VT, FF, CR, SPACE and NO-BREAK SPACE. *)
Definition is_white_space (c : ascii) : bool :=
  let n := nat_of_ascii c in
  ((9 <=? n)%nat && (n <=? 13)%nat) || (n =? 32)%nat || (n =? 160)%nat.

Fixpoint trim_start (s : string) : string :=
  match s with
  | EmptyString => EmptyString
  | String c rest => if is_white_space c then trim_start rest else s
  end.

(** Drops trailing white space: a white-space character is kept exactly
    when something survives behind it. *)
Fixpoint trim_end (s : string) : string :=
  match s with
  | EmptyString => EmptyString
  | String c rest =>
      match trim_end rest with
      | EmptyString => if is_white_space c then EmptyString else String c EmptyString
      | kept => String c kept
      end
  end.

(** [String.prototype.trim]. *)
Definition trim (s : string) : string := trim_end (trim_start s).

(** Decimal digits of a non-negative integer, ["0"] for zero. *)
Definition digits (n : Z) : string :=
  NilZero.string_of_uint (N.to_uint (Z.to_N n)).

Fixpoint zeros (k : nat) : string :=
  match k with
  | O => EmptyString
  | S k' => String "0" (zeros k')
  end.

(** The integer [n] for which [n / 10^f - x] is closest to zero, the
    larger one on a tie; [x] is non-negative. *)
Definition nearest (x : Q) (f : nat) : Z :=
  let a := Qnum x in
  let b := Zpos (Qden x) in
  ((2 * a * 10 ^ Z.of_nat f + b) / (2 * b))%Z.

(** [Number.prototype.toFixed(f)] on a finite number below 10^21 in
    magnitude, step by step as ECMA-262 gives it: the sign is split off,
    the magnitude is rounded to [f] fraction digits, short digit strings
    are padded with zeros on the left, and the point is placed [f] digits
    from the right. *)
Definition toFixed (x : Q) (f : nat) : string :=
  let neg := negb (Qle_bool 0 x) in
  let s := if neg then "-" else "" in
  let x := if neg then Qopp x else x in
  let n := nearest x f in
  let m := digits n in
  let m :=
    match f with
    | O => m
    | S _ =>
        let k := String.length m in
        let m := if (k <=? f)%nat then zeros (f + 1 - k) ++ m else m in
        let k := String.length m in
        substring 0 (k - f) m ++ "." ++ substring (k - f) f m
    end in
  s ++ m.

End Js.

(** ** Size formatting *)

Definition units : list string := ["B"; "KB"; "MB"; "GB"].

(** The loop condition of [formatSize]:
    [value >= 1024 && unitIndex < units.length - 1]. *)
Definition keeps_scaling (value : Q) (unitIndex : nat) : bool :=
  Qle_bool 1024 value && (unitIndex <? length units - 1)%nat.

(** The [while] loop of [formatSize].  [fuel] bounds the number of
    iterations; [scale_exit] below shows that with [length units] of it the
    loop always stops because its condition fails, never for lack of fuel. *)
Fixpoint scale (fuel : nat) (value : Q) (unitIndex : nat) : Q * nat :=
  match fuel with
  | O => (value, unitIndex)
  | S fuel' =>
      if keeps_scaling value unitIndex
      then scale fuel' (value / 1024) (unitIndex + 1)
      else (value, unitIndex)
  end.

(** [formatSize(size?: number): string]; [None] is an absent argument. *)
Definition formatSize (size : option Q) : string :=
  match size with
  | None => "-"
  | Some size =>
      if negb (Js.truthy_number size) then "-"
      else
        let '(value, unitIndex) := scale (length units) size 0 in
        let fractionDigits :=
          if Qle_bool 10 value || (unitIndex =? 0)%nat then 0%nat else 1%nat in
        Js.toFixed value fractionDigits ++ " " ++ nth unitIndex units "undefined"
  end.

Definition bytes (n : Z) : option Q := Some (inject_Z n).


(** ** Data model *)

Definition ItemId := string.

Module FileItem.
Record t := mk {
  id : ItemId;
  parentId : option ItemId;
  name : string;
  folder : bool;
  creation : string;
  modification : string;
  filePath : option string;
  mimeType : option string;
  size : option Q
}.
End FileItem.

Module PathItem.
Record t := mk {
  id : string;
  name : string;
  folder : bool
}.
End PathItem.

(** [interface ItemsResponse { items: FileItem[] }]; the field is read with
    [??], so a body without it is [None]. *)
Module ItemsResponse.
Record t := mk { items : option (list FileItem.t) }.
End ItemsResponse.

(** The body of [GET /items/{id}/path], [{ items: PathItem[] }]. *)
Module PathResponse.
Record t := mk { items : option (list PathItem.t) }.
End PathResponse.

(** [HttpErrorResponse].  [error] is the parsed body of the failed response:
    [None] when it is falsy, otherwise the two fields [handleError] looks
    at, each a string when present ([None] for a missing, null or undefined
    field; a truthy body that is no object has neither). *)
Module HttpErrorResponse.
Record body := mkBody {
  desc : option string;
  message : option string
}.
Record t := mk { error : option body }.
End HttpErrorResponse.

Definition Blob := string.

Record File := mkFile {
  fileName : string;
  fileContent : Blob
}.

(** An [<input>]: its [FileList] (null unless it is a file input) and its
    [value]. *)
Record HTMLInputElement := mkInput {
  files : option (list File);
  value : string
}.

(** A reference to a DOM element, such as [event.target]. *)
Definition ElementRef := nat.

(** The fields of [AppComponent]. *)
Record AppComponent := mkApp {
  items : list FileItem.t;
  path : list PathItem.t;
  currentParentId : option ItemId;
  loading : bool;
  errorMessage : string;
  newFolderName : string;
  uploading : bool
}.

(** ** Requests handed to [HttpClient] *)

Inductive Method := GET | POST | DELETE.

Inductive ResponseType := json | blob.

Inductive FormValue :=
| FormFile (file : File)
| FormText (text : string).

Inductive RequestBody :=
| NoBody
| FormData (entries : list (string * FormValue))
| FolderBody (name : string) (folder : bool) (parentId : option ItemId).

Record HttpRequest := mkRequest {
  method : Method;
  url : string;
  params : list (string * string);
  responseType : ResponseType;
  body : RequestBody
}.

(** The observer passed to [subscribe], one constructor per call site, with
    the variables its two callbacks close over. *)
Inductive Subscriber :=
| OnItems
| OnPath
| OnDownload (item : FileItem.t)
| OnUpload (input : ElementRef)
| OnCreate
| OnDelete.

(** What the browser and [HttpClient] hold besides the component: the
    requests subscribed to so far (oldest first), the file inputs, the live
    object URLs and the files the user was offered to save. *)
Record World := mkWorld {
  this : AppComponent;
  issued : list (HttpRequest * Subscriber);
  inputs : gmap ElementRef HTMLInputElement;
  objectURLs : gmap nat Blob;
  saved : list (string * Blob)
}.

(** ** Assignments and effects *)

(** A method body or a callback: it turns the world before into the world
    after. *)
Definition Action := World -> World.

Definition andThen (a b : Action) : Action := fun w => b (a w).

Notation "a >>> b" := (andThen a b) (at level 61, left associativity).

Definition skip : Action := fun w => w.

(** Runs [k] on a value read from the component. *)
Definition reading {A : Type} (field : AppComponent -> A) (k : A -> Action) : Action :=
  fun w => k (field (this w)) w.

Definition assign (f : AppComponent -> AppComponent) : Action :=
  fun w => mkWorld (f (this w)) (issued w) (inputs w) (objectURLs w) (saved w).

Definition set_items (v : list FileItem.t) (c : AppComponent) : AppComponent :=
  mkApp v (path c) (currentParentId c) (loading c) (errorMessage c)
        (newFolderName c) (uploading c).

Definition set_path (v : list PathItem.t) (c : AppComponent) : AppComponent :=
  mkApp (items c) v (currentParentId c) (loading c) (errorMessage c)
        (newFolderName c) (uploading c).

Definition set_currentParentId (v : option ItemId) (c : AppComponent) : AppComponent :=
  mkApp (items c) (path c) v (loading c) (errorMessage c)
        (newFolderName c) (uploading c).

Definition set_loading (v : bool) (c : AppComponent) : AppComponent :=
  mkApp (items c) (path c) (currentParentId c) v (errorMessage c)
        (newFolderName c) (uploading c).

Definition set_errorMessage (v : string) (c : AppComponent) : AppComponent :=
  mkApp (items c) (path c) (currentParentId c) (loading c) v
        (newFolderName c) (uploading c).

Definition set_newFolderName (v : string) (c : AppComponent) : AppComponent :=
  mkApp (items c) (path c) (currentParentId c) (loading c) (errorMessage c)
        v (uploading c).

Definition set_uploading (v : bool) (c : AppComponent) : AppComponent :=
  mkApp (items c) (path c) (currentParentId c) (loading c) (errorMessage c)
        (newFolderName c) v.

(** [this.http.<method>(...).subscribe(observer)]: the request goes out. *)
Definition subscribe (request : HttpRequest) (observer : Subscriber) : Action :=
  fun w => mkWorld (this w) (issued w ++ [(request, observer)])%list
                   (inputs w) (objectURLs w) (saved w).

(** [input.value = v].  On a file input, one that has a [FileList], the
    only value that can be assigned is the empty string, and assigning it
    empties the list of selected files; any other value is refused with an
    [InvalidStateError] and the element stays as it is.  On another input
    the value is stored. *)
Definition set_value (v : string) (e : HTMLInputElement) : HTMLInputElement :=
  match files e with
  | Some _ => if Js.truthy_string v then e else mkInput (Some []) ""
  | None => mkInput None v
  end.

Definition assign_input (input : ElementRef) (f : HTMLInputElement -> HTMLInputElement)
  : Action :=
  fun w => mkWorld (this w) (issued w) (alter f input (inputs w))
                   (objectURLs w) (saved w).

(** [URL.createObjectURL(blob)] registers the blob under a URL not in use;
    [k] receives that URL. *)
Definition createObjectURL (content : Blob) (k : nat -> Action) : Action :=
  fun w =>
    let url := fresh (dom (objectURLs w)) in
    k url (mkWorld (this w) (issued w) (inputs w)
                   (<[url := content]> (objectURLs w)) (saved w)).

Definition revokeObjectURL (url : nat) : Action :=
  fun w => mkWorld (this w) (issued w) (inputs w)
                   (delete url (objectURLs w)) (saved w).

(** Clicking an anchor with [href = url] and [download = fileName]: the
    browser offers the content behind the URL under that name. *)
Definition clickDownloadLink (url : nat) (fileName : string) : Action :=
  fun w =>
    match objectURLs w !! url with
    | Some content =>
        mkWorld (this w) (issued w) (inputs w) (objectURLs w)
                (saved w ++ [(fileName, content)])%list
    | None => w
    end.

(** ** The component *)

Definition apiBase : string := "/api".

Definition rootPath : list PathItem.t := [PathItem.mk "root" "Root" true].

(** Field initialisers of the class, in a browser that has sent nothing. *)
Definition initialApp : AppComponent :=
  mkApp [] rootPath None false "" "" false.

Definition initial : World := mkWorld initialApp [] ∅ ∅ [].

(** [(error.error && (error.error.desc || error.error.message)) || ''] *)
Definition apiMessage (error : HttpErrorResponse.t) : string :=
  match HttpErrorResponse.error error with
  | None => ""
  | Some b =>
      let picked :=
        if Js.truthy (HttpErrorResponse.desc b)
        then HttpErrorResponse.desc b
        else HttpErrorResponse.message b in
      if Js.truthy picked then Js.nullish picked "" else ""
  end.

Definition handleError (error : HttpErrorResponse.t) (fallbackMessage : string) : Action :=
  let apiMessage := apiMessage error in
  assign (set_errorMessage
            (if Js.truthy_string apiMessage
             then fallbackMessage ++ " " ++ apiMessage
             else fallbackMessage)) >>>
  assign (set_loading false).

Definition loadPath : Action :=
  reading currentParentId (fun current =>
    match current with
    | Some id =>
        if negb (Js.truthy_string id) then assign (set_path rootPath)
        else
          subscribe (mkRequest GET (apiBase ++ "/items/" ++ id ++ "/path") [] json NoBody)
                    OnPath
    | None => assign (set_path rootPath)
    end).

Definition loadItems (parentId : option ItemId) : Action :=
  assign (set_loading true) >>>
  assign (set_errorMessage "") >>>
  assign (set_currentParentId parentId) >>>
  let params :=
    match parentId with
    | Some id => if Js.truthy_string id then [("parentId", id)] else []
    | None => []
    end in
  subscribe (mkRequest GET (apiBase ++ "/items") params json NoBody) OnItems.

Definition ngOnInit : Action := loadItems None.

Definition navigateTo (item : PathItem.t) : Action :=
  if String.eqb (PathItem.id item) "root" then loadItems None
  else loadItems (Some (PathItem.id item)).

Definition downloadItem (item : FileItem.t) : Action :=
  assign (set_errorMessage "") >>>
  subscribe (mkRequest GET (apiBase ++ "/items/" ++ FileItem.id item) [] blob NoBody)
            (OnDownload item).

Definition openItem (item : FileItem.t) : Action :=
  if FileItem.folder item then loadItems (Some (FileItem.id item))
  else downloadItem item.

(** [input.files?.[0]]: the first selected file, if there is one. *)
Definition selectedFile (input : HTMLInputElement) : option File :=
  head (Js.nullish (files input) []).

(** [onUploadChange(event)], with [target] the element [event.target]
    refers to.  Reading [input.files] of a target that is no element throws
    before anything is changed. *)
Definition onUploadChange (target : ElementRef) : Action :=
  fun w =>
    match inputs w !! target with
    | None => w
    | Some input =>
        match selectedFile input with
        | None => w
        | Some file =>
            (assign (set_uploading true) >>>
             assign (set_errorMessage "") >>>
             reading currentParentId (fun current =>
               let formData :=
                 ([("files", FormFile file)] ++
                  match current with
                  | Some id =>
                      if Js.truthy_string id then [("parentId", FormText id)] else []
                  | None => []
                  end)%list in
               subscribe (mkRequest POST (apiBase ++ "/items") [] json (FormData formData))
                         (OnUpload target))) w
        end
    end.

Definition createFolder : Action :=
  reading newFolderName (fun newFolderName =>
    let trimmedName := Js.trim newFolderName in
    if negb (Js.truthy_string trimmedName) then skip
    else
      assign (set_errorMessage "") >>>
      reading currentParentId (fun current =>
        subscribe (mkRequest POST (apiBase ++ "/items") [] json
                             (FolderBody trimmedName true current))
                  OnCreate)).

Definition deleteItem (item : FileItem.t) : Action :=
  assign (set_errorMessage "") >>>
  subscribe (mkRequest DELETE (apiBase ++ "/items/" ++ FileItem.id item) [] json NoBody)
            OnDelete.

(** ** Subscriber callbacks *)

(** [next] of [loadItems]. *)
Definition loadItems_next (response : ItemsResponse.t) : Action :=
  assign (set_items (Js.nullish (ItemsResponse.items response) [])) >>>
  assign (set_loading false) >>>
  loadPath.

Definition loadItems_error (error : HttpErrorResponse.t) : Action :=
  handleError error "Unable to load items.".

(** [next] of [loadPath]. *)
Definition loadPath_next (response : PathResponse.t) : Action :=
  assign (set_path (Js.nullish (PathResponse.items response) rootPath)).

Definition loadPath_error (error : HttpErrorResponse.t) : Action :=
  handleError error "Unable to load path.".

(** [next] of [downloadItem]. *)
Definition downloadItem_next (item : FileItem.t) (content : Blob) : Action :=
  createObjectURL content (fun url =>
    clickDownloadLink url (FileItem.name item) >>>
    revokeObjectURL url).

Definition downloadItem_error (error : HttpErrorResponse.t) : Action :=
  handleError error "Unable to download file.".

(** [next] of [onUploadChange]; [input] is the element the handler read the
    file from. *)
Definition onUploadChange_next (input : ElementRef) : Action :=
  assign (set_uploading false) >>>
  assign_input input (set_value "") >>>
  reading currentParentId loadItems.

Definition onUploadChange_error (error : HttpErrorResponse.t) : Action :=
  assign (set_uploading false) >>>
  handleError error "Unable to upload file.".

(** [next] of [createFolder]. *)
Definition createFolder_next : Action :=
  assign (set_newFolderName "") >>>
  reading currentParentId loadItems.

Definition createFolder_error (error : HttpErrorResponse.t) : Action :=
  handleError error "Unable to create folder.".

(** [next] of [deleteItem]. *)
Definition deleteItem_next : Action :=
  reading currentParentId loadItems.

Definition deleteItem_error (error : HttpErrorResponse.t) : Action :=
  handleError error "Unable to delete item.".

(** What a successful response carries to each observer. *)
Definition Payload (s : Subscriber) : Type :=
  match s with
  | OnItems => ItemsResponse.t
  | OnPath => PathResponse.t
  | OnDownload _ => Blob
  | OnUpload _ => FileItem.t
  | OnCreate => FileItem.t
  | OnDelete => unit
  end.

(** The one notification an HTTP observable delivers. *)
Inductive Outcome (s : Subscriber) :=
| Next (response : Payload s)
| Error (error : HttpErrorResponse.t).

Arguments Next {s} & response.
Arguments Error {s} error.

(** Delivery of a response to the observer it was subscribed with. *)
Definition notify (s : Subscriber) : Outcome s -> Action :=
  match s as s' return Outcome s' -> Action with
  | OnItems => fun o =>
      match o with Next r => loadItems_next r | Error e => loadItems_error e end
  | OnPath => fun o =>
      match o with Next r => loadPath_next r | Error e => loadPath_error e end
  | OnDownload item => fun o =>
      match o with Next b => downloadItem_next item b | Error e => downloadItem_error e end
  | OnUpload input => fun o =>
      match o with Next _ => onUploadChange_next input | Error e => onUploadChange_error e end
  | OnCreate => fun o =>
      match o with Next _ => createFolder_next | Error e => createFolder_error e end
  | OnDelete => fun o =>
      match o with Next _ => deleteItem_next | Error e => deleteItem_error e end
  end.

Arguments notify s & _ _.

(** ** Vocabulary of the specification *)

(** The fallback message each operation passes to [handleError]. *)
Definition fallbackMessage (s : Subscriber) : string :=
  match s with
  | OnItems => "Unable to load items."
  | OnPath => "Unable to load path."
  | OnDownload _ => "Unable to download file."
  | OnUpload _ => "Unable to upload file."
  | OnCreate => "Unable to create folder."
  | OnDelete => "Unable to delete item."
  end.

(** The root location: no identifier, or one that is falsy. *)
Definition isRoot (location : option ItemId) : bool := negb (Js.truthy location).

(** The listing fetch for a location: [GET /api/items], with the parent
    filter unless the location is root. *)
Definition listingRequest (location : option ItemId) : HttpRequest :=
  mkRequest GET "/api/items"
            match location with
            | Some id => if isRoot location then [] else [("parentId", id)]
            | None => []
            end
            json NoBody.

(** The ancestor-chain fetch for a folder: [GET /api/items/{id}/path]. *)
Definition pathRequest (id : ItemId) : HttpRequest :=
  mkRequest GET ("/api/items/" ++ id ++ "/path") [] json NoBody.

(** The content fetch for an entry: [GET /api/items/{id}], binary. *)
Definition downloadRequest (id : ItemId) : HttpRequest :=
  mkRequest GET ("/api/items/" ++ id) [] blob NoBody.

(** Breadcrumb resolution for a given location, as the specification
    describes it: the root-only breadcrumb without a request for root, the
    ancestor-chain fetch otherwise. *)
Definition resolveBreadcrumb (location : option ItemId) : Action :=
  match location with
  | Some id =>
      if isRoot location then assign (set_path rootPath)
      else subscribe (pathRequest id) OnPath
  | None => assign (set_path rootPath)
  end.

(** Size formatting in the specification's words: ["-"] for an absent or
    zero count; otherwise the count is divided by 1024 once per unit passed
    on the way through B, KB, MB, GB, as long as it is at least 1024 and GB
    is not reached; no decimals when the scaled value is at least 10 or the
    unit is B, one decimal otherwise. *)
Definition dividedBy1024 (times : nat) (x : Q) : Q :=
  Nat.iter times (fun v : Q => (v / 1024)%Q) x.

Definition unitIndexOf (x : Q) : nat :=
  if negb (Qle_bool 1024 x) then 0%nat
  else if negb (Qle_bool 1024 (dividedBy1024 1 x)) then 1%nat
  else if negb (Qle_bool 1024 (dividedBy1024 2 x)) then 2%nat
  else 3%nat.

Definition formatSize_spec (size : option Q) : string :=
  match size with
  | None => "-"
  | Some x =>
      if Qeq_bool x 0 then "-"
      else
        let k := unitIndexOf x in
        let scaled := dividedBy1024 k x in
        let unit := nth k ["B"; "KB"; "MB"; "GB"] "" in
        if Qle_bool 10 scaled || String.eqb unit "B"
        then Js.toFixed scaled 0 ++ " " ++ unit
        else Js.toFixed scaled 1 ++ " " ++ unit
  end.

(** The message shown for a failure, in the specification's terms: the
    fallback followed by a space and the description, where the description
    is the body's [desc] if that is a non-empty string and otherwise its
    [message] if that is one; the fallback alone when there is neither. *)
Definition shownError (fallback : string) (error : HttpErrorResponse.t) : string :=
  match HttpErrorResponse.error error with
  | Some b =>
      match HttpErrorResponse.desc b, HttpErrorResponse.message b with
      | Some (String c d), _ => fallback ++ " " ++ String c d
      | _, Some (String c m) => fallback ++ " " ++ String c m
      | _, _ => fallback
      end
  | None => fallback
  end.

(** A browser in which the user has picked one file in the upload input. *)
Definition withPickedFile : World :=
  mkWorld initialApp [] {[ 0%nat := mkInput (Some [mkFile "a.txt" "abc"]) "a.txt" ]} ∅ [].

Definition someFile : FileItem.t :=
  FileItem.mk "f1" None "notes.txt" false "2024-01-01" "2024-01-02"
              (Some "/data/f1") (Some "text/plain") (Some (inject_Z 2048)).

Definition someFolder : FileItem.t :=
  FileItem.mk "d1" None "docs" true "2024-01-01" "2024-01-02" None None None.

(** A browser in which the user has typed a blank folder name and opened
    the file dialog without picking anything. *)
Definition withBlankForm : World :=
  mkWorld (set_newFolderName "  " initialApp) []
          {[ 0%nat := mkInput (Some []) "" ]} ∅ [].

(** ** Events *)

(** Everything that can happen to the component: the template calls one of
    its methods, a response reaches an observer, or the user edits the form
    -- the folder-name field is bound to [newFolderName], and the file
    dialog sets the [files] and [value] of an input. *)
Inductive Event :=
| NgOnInit
| NavigateTo (item : PathItem.t)
| OpenItem (item : FileItem.t)
| DownloadItem (item : FileItem.t)
| UploadChange (target : ElementRef)
| CreateFolder
| DeleteItem (item : FileItem.t)
| Notify (s : Subscriber) (o : Outcome s)
| TypeFolderName (text : string)
| ChooseFiles (target : ElementRef) (element : HTMLInputElement).

Definition step (e : Event) : Action :=
  match e with
  | NgOnInit => ngOnInit
  | NavigateTo item => navigateTo item
  | OpenItem item => openItem item
  | DownloadItem item => downloadItem item
  | UploadChange target => onUploadChange target
  | CreateFolder => createFolder
  | DeleteItem item => deleteItem item
  | Notify s o => notify s o
  | TypeFolderName text => assign (set_newFolderName text)
  | ChooseFiles target element =>
      fun w => mkWorld (this w) (issued w) (<[target := element]> (inputs w))
                       (objectURLs w) (saved w)
  end.

(** The events of a session, handled one after the other. *)
Definition run (events : list Event) : Action :=
  fun w => fold_left (fun v e => step e v) events w.

(** The events that are a method call of the template, as opposed to a
    response or an edit of the form. *)
Definition isMethodCall (e : Event) : bool :=
  match e with
  | Notify _ _ | TypeFolderName _ | ChooseFiles _ _ => false
  | _ => true
  end.

(** ** Further vocabulary *)

(** The responses that bring new content to display: a successful listing
    and a successful path fetch. *)
Definition refreshesDisplay (e : Event) : bool :=
  match e with
  | Notify OnItems (Next _) => true
  | Notify OnPath (Next _) => true
  | _ => false
  end.

(** The location a breadcrumb segment leads to: root for the segment whose
    identifier is ['root'], the segment's folder otherwise. *)
Definition segmentTarget (item : PathItem.t) : option ItemId :=
  if String.eqb (PathItem.id item) "root" then None else Some (PathItem.id item).

(** The last character of a string, if it has one. *)
Fixpoint lastChar (s : string) : option ascii :=
  match s with
  | EmptyString => None
  | String c EmptyString => Some c
  | String _ rest => lastChar rest
  end.

Definition firstChar (s : string) : option ascii :=
  match s with
  | EmptyString => None
  | String c _ => Some c
  end.

(** The unit a size falls in by its magnitude alone: below 1024, below
    1024^2, below 1024^3, or anything larger. *)
Definition magnitudeIndex (x : Q) : nat :=
  if negb (Qle_bool 1024 x) then 0%nat
  else if negb (Qle_bool 1048576 x) then 1%nat
  else if negb (Qle_bool 1073741824 x) then 2%nat
  else 3%nat.

(** The size of one unit in bytes: 1, 1024, 1024^2, 1024^3. *)
Definition unitSize (k : nat) : Q := inject_Z (1024 ^ Z.of_nat k).

(** * Properties *)

(** ** JavaScript primitives *)

Example trim_blank : Js.trim "  " = "".
Proof. reflexivity. Qed.

Example trim_inner : Js.trim "  a b  " = "a b".
Proof. reflexivity. Qed.

Example toFixed_half : Js.toFixed (5 # 2) 0 = "3".
Proof. reflexivity. Qed.

Example toFixed_tie : Js.toFixed (1 # 4) 1 = "0.3".
Proof. reflexivity. Qed.

Example toFixed_neg : Js.toFixed (-(3 # 2)) 1 = "-1.5".
Proof. reflexivity. Qed.

Lemma truthy_number_Qeq (x : Q) : negb (Js.truthy_number x) = Qeq_bool x 0.
Proof.
  unfold Js.truthy_number, Qeq_bool. rewrite negb_involutive.
  cbn [Qnum Qden]. now rewrite Z.mul_1_r.
Qed.

(** ** Size formatting *)

Section FormatSize.

(** When the loop is given at least as many iterations as there are units
    left, it stops because its condition has become false. *)
Lemma scale_exit (fuel : nat) :
  forall (value : Q) (unitIndex : nat),
    (length units - 1 - unitIndex <= fuel)%nat ->
    keeps_scaling (fst (scale fuel value unitIndex))
                  (snd (scale fuel value unitIndex)) = false.
Proof.
  induction fuel as [|fuel IH]; intros value unitIndex Hfuel; cbn [scale].
  - cbn [fst snd]. unfold keeps_scaling.
    replace (unitIndex <? length units - 1)%nat with false.
    + apply andb_false_r.
    + symmetry. apply Nat.ltb_ge. lia.
  - destruct (keeps_scaling value unitIndex) eqn:Hcond.
    + apply IH. lia.
    + exact Hcond.
Qed.

(** More fuel than [length units] changes nothing. *)
Lemma scale_fuel (extra : nat) :
  forall (fuel : nat) (value : Q) (unitIndex : nat),
    (length units - 1 - unitIndex <= fuel)%nat ->
    scale (fuel + extra) value unitIndex = scale fuel value unitIndex.
Proof.
  intros fuel. induction fuel as [|fuel IH]; intros value unitIndex Hfuel.
  - destruct extra as [|extra]; [reflexivity|].
    cbn [Nat.add scale]. unfold keeps_scaling.
    replace (unitIndex <? length units - 1)%nat with false.
    + now rewrite andb_false_r.
    + symmetry. apply Nat.ltb_ge. lia.
  - cbn [Nat.add scale].
    destruct (keeps_scaling value unitIndex); [|reflexivity].
    apply IH. lia.
Qed.

(** The loop in closed form: the index it stops at and the value it
    leaves. *)
Lemma scale_closed_form (x : Q) :
  scale (length units) x 0 = (dividedBy1024 (unitIndexOf x) x, unitIndexOf x).
Proof.
  unfold unitIndexOf, dividedBy1024. cbv [Nat.iter nat_rect].
  cbn [length units scale Nat.add].
  unfold keeps_scaling. cbn [length units Nat.sub Nat.ltb Nat.leb andb].
  destruct (Qle_bool 1024 x); cbn [negb andb]; [|reflexivity].
  destruct (Qle_bool 1024 (x / 1024)); cbn [negb andb]; [|reflexivity].
  destruct (Qle_bool 1024 (x / 1024 / 1024)); cbn [negb andb]; [|reflexivity].
  now rewrite andb_false_r.
Qed.

Lemma unitIndexOf_bound (x : Q) : (unitIndexOf x <= 3)%nat.
Proof.
  unfold unitIndexOf.
  repeat match goal with |- context [if ?b then _ else _] => destruct b end; lia.
Qed.

(** Below GB the scaled value is under 1024. *)
Lemma unitIndexOf_scaled_below (x : Q) :
  (unitIndexOf x < 3)%nat -> (dividedBy1024 (unitIndexOf x) x < 1024)%Q.
Proof.
  unfold unitIndexOf.
  destruct (Qle_bool 1024 x) eqn:H0; cbn [negb].
  - destruct (Qle_bool 1024 (dividedBy1024 1 x)) eqn:H1; cbn [negb].
    + destruct (Qle_bool 1024 (dividedBy1024 2 x)) eqn:H2; cbn [negb]; [lia|].
      intros _. apply Qnot_le_lt. rewrite <- Qle_bool_iff. congruence.
    + intros _. apply Qnot_le_lt. rewrite <- Qle_bool_iff. congruence.
  - intros _. apply Qnot_le_lt. rewrite <- Qle_bool_iff. cbn. congruence.
Qed.

(** Every division on the way was of a value of at least 1024. *)
Lemma unitIndexOf_divided_from (x : Q) (j : nat) :
  (j < unitIndexOf x)%nat -> (1024 <= dividedBy1024 j x)%Q.
Proof.
  unfold unitIndexOf.
  destruct (Qle_bool 1024 x) eqn:H0; cbn [negb]; [|lia].
  destruct (Qle_bool 1024 (dividedBy1024 1 x)) eqn:H1; cbn [negb].
  - destruct (Qle_bool 1024 (dividedBy1024 2 x)) eqn:H2; cbn [negb]; intros Hj;
      (destruct j as [|[|[|j]]]; [| | |lia]); try lia;
      apply Qle_bool_iff; assumption.
  - intros Hj. destruct j as [|j]; [|lia]. apply Qle_bool_iff; assumption.
Qed.

(** C3 (as amended): [formatSize] gives ["-"] for an absent or zero byte
    count; otherwise it divides by 1024 through B, KB, MB, GB while the
    value is at least 1024, stops at GB whatever the value, and prints no
    decimals when the scaled value is at least 10 or the unit is B and one
    decimal otherwise -- it agrees everywhere with [formatSize_spec].  In
    particular 2048 gives ["2.0 KB"], 1536 gives ["1.5 KB"] and
    15 * 1024 * 1024 gives ["15 MB"]. *)
Theorem formatSize_scaling_and_precision :
  (forall size : option Q, formatSize size = formatSize_spec size) /\
  formatSize None = "-" /\
  (forall d : positive, formatSize (Some (0 # d)) = "-") /\
  formatSize (bytes 2048) = "2.0 KB" /\
  formatSize (bytes 1536) = "1.5 KB" /\
  formatSize (bytes (15 * 1024 * 1024)) = "15 MB".
Proof.
  split; [|repeat split; reflexivity].
  intros [x|]; [|reflexivity].
  unfold formatSize, formatSize_spec.
  rewrite truthy_number_Qeq.
  destruct (Qeq_bool x 0); [reflexivity|].
  rewrite scale_closed_form.
  set (v := dividedBy1024 (unitIndexOf x) x).
  unfold unitIndexOf.
  destruct (negb (Qle_bool 1024 x)); [now destruct (Qle_bool 10 v)|].
  destruct (negb (Qle_bool 1024 (dividedBy1024 1 x))); [now destruct (Qle_bool 10 v)|].
  destruct (negb (Qle_bool 1024 (dividedBy1024 2 x))); now destruct (Qle_bool 10 v).
Qed.

(** C3 (as stated) fails on its first example: 2048 bytes are 2 KB, which
    is below 10 and not in bytes, so one decimal is printed. *)
Lemma formatSize_2048_has_a_decimal : formatSize (bytes 2048) <> "2 KB".
Proof. vm_compute. discriminate. Qed.

(** C4 (as amended): 512 bytes are printed as ["512 B"], and 1024^4 bytes,
    scaled to 1024 in the last unit, as ["1024 GB"], without decimals. *)
Theorem formatSize_512_and_1024_pow_4 :
  formatSize (bytes 512) = "512 B" /\
  formatSize (bytes (1024 ^ 4)) = "1024 GB".
Proof. split; reflexivity. Qed.

(** C4 (as stated) fails on both of its examples. *)
Lemma formatSize_512_and_1024_pow_4_not_as_stated :
  formatSize (bytes 512) <> "0 B" /\
  formatSize (bytes (1024 ^ 4)) <> "1024.0 GB".
Proof. split; vm_compute; discriminate. Qed.

End FormatSize.

(** ** Listing and breadcrumb *)

Section Listing.

(** Start-up: the root listing is requested, and its answer settles the
    root breadcrumb without a second request. *)
Example startup_session :
  let w := notify OnItems (Next (ItemsResponse.mk (Some [someFolder; someFile])))
             (ngOnInit initial) in
  issued w = [(listingRequest None, OnItems)] /\
  items (this w) = [someFolder; someFile] /\
  path (this w) = rootPath /\
  loading (this w) = false.
Proof. cbn zeta. repeat split. Qed.

(** Opening a folder and receiving its listing asks for its ancestors. *)
Example open_folder_session :
  let w := notify OnItems (Next (ItemsResponse.mk None))
             (openItem someFolder (ngOnInit initial)) in
  issued w = [(listingRequest None, OnItems);
              (listingRequest (Some "d1"), OnItems);
              (pathRequest "d1", OnPath)] /\
  items (this w) = [] /\
  currentParentId (this w) = Some "d1".
Proof. cbn zeta. repeat split. Qed.

(** [loadPath] is breadcrumb resolution for the location the component
    holds when it runs. *)
Lemma loadPath_resolves_current (w : World) :
  loadPath w = resolveBreadcrumb (currentParentId (this w)) w.
Proof.
  unfold loadPath, reading, resolveBreadcrumb.
  destruct (currentParentId (this w)) as [id|]; reflexivity.
Qed.

(** [loadItems] subscribes to the listing fetch for its argument and makes
    that argument the current location. *)
Lemma loadItems_effect (location : option ItemId) (w : World) :
  issued (loadItems location w) = (issued w ++ [(listingRequest location, OnItems)])%list /\
  currentParentId (this (loadItems location w)) = location /\
  loading (this (loadItems location w)) = true /\
  errorMessage (this (loadItems location w)) = "".
Proof. destruct location as [[|c id]|]; repeat split; reflexivity. Qed.

(** C1 (as amended): a successful listing fetch replaces the entry list
    with the response's items, or with the empty list when the response
    has none, leaves [loading] false, and then runs breadcrumb resolution
    for the location that is current when the response is handled.  That
    is the location the listing was fetched for when the response is
    handled right after [loadItems]. *)
Theorem listing_success_effect (response : ItemsResponse.t) (w : World) :
  let shown := Js.nullish (ItemsResponse.items response) [] in
  let shownIn v := assign (set_loading false) (assign (set_items shown) v) in
  let w' := notify OnItems (Next response) w in
  items (this w') = shown /\
  loading (this w') = false /\
  w' = resolveBreadcrumb (currentParentId (this w)) (shownIn w) /\
  (forall location : option ItemId,
      notify OnItems (Next response) (loadItems location w)
      = resolveBreadcrumb location (shownIn (loadItems location w))).
Proof.
  cbn zeta.
  assert (Hnext : forall v,
             notify OnItems (Next response) v
             = resolveBreadcrumb (currentParentId (this v))
                 (assign (set_loading false)
                    (assign (set_items (Js.nullish (ItemsResponse.items response) [])) v))).
  { intros v. cbn [notify]. unfold loadItems_next, andThen.
    now rewrite loadPath_resolves_current. }
  repeat split.
  - rewrite Hnext. destruct (currentParentId (this w)) as [[|c id]|]; reflexivity.
  - rewrite Hnext. destruct (currentParentId (this w)) as [[|c id]|]; reflexivity.
  - apply Hnext.
  - intros location. rewrite Hnext.
    now destruct (loadItems_effect location w) as (_ & -> & _).
Qed.

(** C1 (as stated) fails when the user navigated on before the response
    arrived: the listing of folder ["a"] arrives while the location is
    root again, and no ancestor chain of ["a"] is requested. *)
Lemma listing_success_resolves_current_location :
  let w := loadItems None (loadItems (Some "a") initial) in
  let response := ItemsResponse.mk (Some []) in
  let w' := notify OnItems (Next response) w in
  issued w !! 0%nat = Some (listingRequest (Some "a"), OnItems) /\
  w' <> resolveBreadcrumb (Some "a")
          (assign (set_loading false) (assign (set_items []) w)) /\
  issued w' = [(listingRequest (Some "a"), OnItems); (listingRequest None, OnItems)] /\
  currentParentId (this w') = None /\
  path (this w') = rootPath.
Proof.
  cbn zeta. repeat split.
  intros H. apply (f_equal issued) in H. vm_compute in H. discriminate.
Qed.

(** C5 (as amended): a successful path fetch replaces the breadcrumb with
    the response's items, also when they are the empty list; only a
    response without items gives the root-only breadcrumb.  Nothing else
    changes. *)
Theorem path_success_effect (response : PathResponse.t) (w : World) :
  let w' := notify OnPath (Next response) w in
  path (this w') =
    match PathResponse.items response with
    | Some segments => segments
    | None => [PathItem.mk "root" "Root" true]
    end /\
  this w' = set_path (path (this w')) (this w) /\
  issued w' = issued w /\
  inputs w' = inputs w /\
  objectURLs w' = objectURLs w /\
  saved w' = saved w.
Proof. destruct response as [[segments|]]; repeat split; reflexivity. Qed.

(** C5 (as stated) fails for an empty ancestor chain: the breadcrumb
    becomes empty, not root-only. *)
Lemma path_success_empty_items :
  let w := notify OnItems (Next (ItemsResponse.mk (Some [])))
             (loadItems (Some "a") initial) in
  let w' := notify OnPath (Next (PathResponse.mk (Some []))) w in
  issued w !! 1%nat = Some (pathRequest "a", OnPath) /\
  path (this w') = [] /\
  path (this w') <> [PathItem.mk "root" "Root" true].
Proof. cbn zeta. repeat split. discriminate. Qed.

(** C6: at the root location [loadPath] sets the breadcrumb to the single
    segment [{id: 'root', name: 'Root', folder: true}] and subscribes to
    nothing. *)
Theorem loadPath_at_root (w : World) :
  currentParentId (this w) = None ->
  path (this (loadPath w)) = [PathItem.mk "root" "Root" true] /\
  issued (loadPath w) = issued w /\
  loadPath w = assign (set_path rootPath) w.
Proof.
  intros Hroot. unfold loadPath, reading. rewrite Hroot.
  repeat split; reflexivity.
Qed.

Lemma loadPath_at_root_witness :
  currentParentId (this initial) = None /\
  path (this (loadPath initial)) = [PathItem.mk "root" "Root" true] /\
  issued (loadPath initial) = issued initial /\
  loadPath initial = assign (set_path rootPath) initial.
Proof. split; [reflexivity | apply (loadPath_at_root initial); reflexivity]. Defined.

End Listing.

(** ** Error mapping *)

Section Errors.

Lemma handleError_effect (error : HttpErrorResponse.t) (fallback : string) (w : World) :
  let w' := handleError error fallback w in
  errorMessage (this w') = shownError fallback error /\
  loading (this w') = false /\
  this w' = set_loading false (set_errorMessage (shownError fallback error) (this w)) /\
  issued w' = issued w /\
  inputs w' = inputs w /\
  objectURLs w' = objectURLs w /\
  saved w' = saved w.
Proof.
  destruct error as [[[[[|c d]|] [[|c' m]|]]|]]; repeat split; reflexivity.
Qed.

(** C2 (as amended): after a failed request of any operation the error
    message is the operation's fallback followed by a space and the
    body's [desc] when that is a non-empty string, else by a space and
    the body's [message] when that is a non-empty string, else the
    fallback alone; [loading] is false; [uploading] is false after a
    failed upload and is left as it was by any other failure. *)
Theorem failure_effect (s : Subscriber) (error : HttpErrorResponse.t) (w : World) :
  let w' := notify s (Error error) w in
  errorMessage (this w') = shownError (fallbackMessage s) error /\
  loading (this w') = false /\
  uploading (this w') =
    match s with
    | OnUpload _ => false
    | _ => uploading (this w)
    end.
Proof.
  destruct s; cbn [notify fallbackMessage];
    unfold loadItems_error, loadPath_error, downloadItem_error,
           onUploadChange_error, createFolder_error, deleteItem_error, andThen;
    match goal with
    | |- context [handleError ?e ?f ?v] =>
        destruct (handleError_effect e f v) as (Hmsg & Hload & Hthis & _)
    end;
    cbn zeta in *; rewrite Hmsg, Hload, Hthis; repeat split; reflexivity.
Qed.

(** C2 (as stated) fails in two ways: a delete that fails while an upload
    is under way leaves [uploading] true, and a body whose [desc] is the
    empty string gives the fallback alone, without the space. *)
Lemma failure_effect_not_as_stated :
  let w := deleteItem someFile (onUploadChange 0%nat withPickedFile) in
  let failed := HttpErrorResponse.mk None in
  let blank := HttpErrorResponse.mk (Some (HttpErrorResponse.mkBody (Some "") None)) in
  issued w !! 1%nat = Some (mkRequest DELETE "/api/items/f1" [] json NoBody, OnDelete) /\
  uploading (this (notify OnDelete (Error failed) w)) = true /\
  errorMessage (this (notify OnItems (Error blank) (ngOnInit initial)))
    = "Unable to load items." /\
  errorMessage (this (notify OnItems (Error blank) (ngOnInit initial)))
    <> "Unable to load items." ++ " " ++ "".
Proof. cbn zeta. repeat split. vm_compute. discriminate. Qed.

End Errors.

(** ** Mutations, opening and download *)

Section Mutations.

(** C7: the success callback of an upload, of a folder creation and of a
    delete each subscribe to exactly one more request, the listing fetch
    for the location that is current at that moment, and leave that
    location as it is; for a folder identifier the fetch carries it as
    [parentId], so it is not the root listing. *)
Theorem mutation_success_refreshes (w : World) :
  let refresh := (listingRequest (currentParentId (this w)), OnItems) in
  (forall (input : ElementRef) (created : FileItem.t),
      let w' := notify (OnUpload input) (Next created) w in
      issued w' = (issued w ++ [refresh])%list /\
      currentParentId (this w') = currentParentId (this w)) /\
  (forall created : FileItem.t,
      let w' := notify OnCreate (Next created) w in
      issued w' = (issued w ++ [refresh])%list /\
      currentParentId (this w') = currentParentId (this w)) /\
  (let w' := notify OnDelete (Next tt) w in
   issued w' = (issued w ++ [refresh])%list /\
   currentParentId (this w') = currentParentId (this w)) /\
  (forall (c : ascii) (rest : string),
      listingRequest (Some (String c rest))
      = mkRequest GET "/api/items" [("parentId", String c rest)] json NoBody).
Proof.
  cbn zeta. repeat split; intros; cbn [notify];
    unfold onUploadChange_next, createFolder_next, deleteItem_next, andThen, reading;
    match goal with
    | |- context [loadItems ?l ?v] =>
        destruct (loadItems_effect l v) as (Hissued & Hcurrent & _);
        first [ rewrite Hissued | rewrite Hcurrent ]; reflexivity
    end.
Qed.

(** C8: [createFolder] with a name that is blank once trimmed, and
    [onUploadChange] on an input without a selected file, change nothing:
    no request goes out and the error message stays as it was. *)
Theorem rejected_input_is_a_no_op (w : World) :
  (Js.trim (newFolderName (this w)) = "" -> createFolder w = w) /\
  (forall (target : ElementRef) (input : HTMLInputElement),
      inputs w !! target = Some input ->
      selectedFile input = None ->
      onUploadChange target w = w).
Proof.
  split.
  - intros Hblank. unfold createFolder, reading. now rewrite Hblank.
  - intros target input Hinput Hnone. unfold onUploadChange.
    now rewrite Hinput, Hnone.
Qed.

Lemma rejected_input_is_a_no_op_witness :
  Js.trim (newFolderName (this withBlankForm)) = "" /\
  inputs withBlankForm !! 0%nat = Some (mkInput (Some []) "") /\
  selectedFile (mkInput (Some []) "") = None /\
  createFolder withBlankForm = withBlankForm /\
  onUploadChange 0%nat withBlankForm = withBlankForm.
Proof.
  destruct (rejected_input_is_a_no_op withBlankForm) as [Hcreate Hupload].
  split; [reflexivity|]. split; [reflexivity|]. split; [reflexivity|]. split.
  - apply Hcreate. reflexivity.
  - apply (Hupload 0%nat (mkInput (Some []) "")); reflexivity.
Defined.

(** The download callbacks touch neither the component's location nor
    what it displays. *)
Lemma download_outcome_frame (item : FileItem.t) (o : Outcome (OnDownload item))
      (w : World) :
  let w' := notify (OnDownload item) o w in
  currentParentId (this w') = currentParentId (this w) /\
  items (this w') = items (this w) /\
  path (this w') = path (this w).
Proof.
  destruct o as [content|error]; cbn [notify].
  - unfold downloadItem_next, createObjectURL, andThen, clickDownloadLink.
    cbn [objectURLs]. rewrite lookup_insert_eq. repeat split; reflexivity.
  - unfold downloadItem_error.
    destruct (handleError_effect error "Unable to download file." w)
      as (_ & _ & Hthis & _).
    cbn zeta in *. rewrite Hthis. repeat split; reflexivity.
Qed.

(** C9: opening a folder makes its identifier the current location;
    opening a file leaves the location alone and subscribes to exactly one
    request, the content fetch for that file; and neither [downloadItem]
    nor either of its callbacks changes the location, the entry list or
    the breadcrumb. *)
Theorem openItem_effect (item : FileItem.t) (w : World) :
  currentParentId (this (openItem item w))
    = (if FileItem.folder item then Some (FileItem.id item)
       else currentParentId (this w)) /\
  issued (openItem item w)
    = (issued w ++
       [if FileItem.folder item
        then (listingRequest (Some (FileItem.id item)), OnItems)
        else (downloadRequest (FileItem.id item), OnDownload item)])%list /\
  (issued (downloadItem item w)
     = (issued w ++ [(downloadRequest (FileItem.id item), OnDownload item)])%list /\
   currentParentId (this (downloadItem item w)) = currentParentId (this w) /\
   items (this (downloadItem item w)) = items (this w) /\
   path (this (downloadItem item w)) = path (this w)) /\
  (forall o : Outcome (OnDownload item),
      let w' := notify (OnDownload item) o w in
      currentParentId (this w') = currentParentId (this w) /\
      items (this w') = items (this w) /\
      path (this w') = path (this w)).
Proof.
  unfold openItem.
  destruct (loadItems_effect (Some (FileItem.id item)) w) as (Hissued & Hcurrent & _).
  split; [|split; [|split]].
  - destruct (FileItem.folder item); [exact Hcurrent | reflexivity].
  - destruct (FileItem.folder item); [exact Hissued | reflexivity].
  - repeat split; reflexivity.
  - intros o. apply download_outcome_frame.
Qed.

(** The element an [<input>] is after [input.value = '']: no file is
    selected any more and the value is the empty string. *)
Lemma set_value_empty (e : HTMLInputElement) :
  set_value "" e
  = mkInput (match files e with Some _ => Some [] | None => None end) "".
Proof. destruct e as [[selected|] shown]; reflexivity. Qed.

(** C10: a failed folder creation leaves [newFolderName] as it was and a
    failed upload leaves every file input as it was, selected files and
    value included; the success callbacks are where the name becomes the
    empty string and where the upload's input loses its selected files and
    gets the empty string as value, every other input staying as it was --
    issuing the requests changes neither. *)
Theorem pending_input_kept_on_failure (w : World) :
  (forall error : HttpErrorResponse.t,
      newFolderName (this (notify OnCreate (Error error) w)) = newFolderName (this w)) /\
  (forall (input : ElementRef) (error : HttpErrorResponse.t),
      inputs (notify (OnUpload input) (Error error) w) = inputs w) /\
  (forall created : FileItem.t,
      newFolderName (this (notify OnCreate (Next created) w)) = "") /\
  (forall (input : ElementRef) (created : FileItem.t),
      let w' := notify (OnUpload input) (Next created) w in
      inputs w' !! input
      = (fun element : HTMLInputElement =>
           mkInput (match files element with Some _ => Some [] | None => None end) "")
          <$> inputs w !! input /\
      delete input (inputs w') = delete input (inputs w)) /\
  newFolderName (this (createFolder w)) = newFolderName (this w) /\
  (forall target : ElementRef, inputs (onUploadChange target w) = inputs w).
Proof.
  split; [|split; [|split; [|split; [|split]]]].
  - intros error. cbn [notify]. unfold createFolder_error.
    destruct (handleError_effect error "Unable to create folder." w)
      as (_ & _ & Hthis & _).
    cbn zeta in *. now rewrite Hthis.
  - intros input error. cbn [notify]. unfold onUploadChange_error, andThen.
    now destruct (handleError_effect error "Unable to upload file."
                    (assign (set_uploading false) w)) as (_ & _ & _ & _ & Hinputs & _).
  - intros created. cbn [notify]. unfold createFolder_next, andThen, reading.
    now destruct (currentParentId (this (assign (set_newFolderName "") w))) as [[|c id]|].
  - intros input created. cbn zeta.
    assert (Hinputs : inputs (notify (OnUpload input) (Next created) w)
                      = alter (set_value "") input (inputs w)).
    { cbn [notify]. unfold onUploadChange_next, andThen, reading.
      now destruct (currentParentId
                      (this (assign_input input (set_value "")
                               (assign (set_uploading false) w)))) as [[|c id]|]. }
    rewrite Hinputs. split.
    + rewrite lookup_alter_eq.
      destruct (inputs w !! input) as [element|]; [|reflexivity].
      cbn [fmap option_fmap option_map]. now rewrite set_value_empty.
    + apply map_eq. intros other.
      destruct (decide (other = input)) as [->|Hother].
      * now rewrite !lookup_delete_eq.
      * now rewrite !lookup_delete_ne, lookup_alter_ne by congruence.
  - unfold createFolder, reading.
    now destruct (negb (Js.truthy_string (Js.trim (newFolderName (this w))))).
  - intros target. unfold onUploadChange.
    destruct (inputs w !! target) as [input|]; [|reflexivity].
    now destruct (selectedFile input).
Qed.

(** An upload from start to answer: chosen, sent and accepted, the input
    is empty again; chosen, sent and refused, it still holds the file. *)
Example upload_outcomes_on_the_input :
  let sent := onUploadChange 0%nat withPickedFile in
  let accepted := notify (OnUpload 0%nat) (Next someFile) sent in
  let refused := notify (OnUpload 0%nat) (Error (HttpErrorResponse.mk None)) sent in
  inputs sent !! 0%nat = Some (mkInput (Some [mkFile "a.txt" "abc"]) "a.txt") /\
  inputs accepted !! 0%nat = Some (mkInput (Some []) "") /\
  inputs refused !! 0%nat = Some (mkInput (Some [mkFile "a.txt" "abc"]) "a.txt").
Proof. cbn zeta. split; [|split]; reflexivity. Qed.

End Mutations.

(** ** What each method and callback does to the whole world *)

Section Worlds.

Lemma loadItems_world (location : option ItemId) (w : World) :
  loadItems location w
  = mkWorld (set_currentParentId location
               (set_errorMessage "" (set_loading true (this w))))
            (issued w ++ [(listingRequest location, OnItems)])%list
            (inputs w) (objectURLs w) (saved w).
Proof. destruct location as [[|c id]|]; reflexivity. Qed.

Lemma handleError_world (error : HttpErrorResponse.t) (fallback : string) (w : World) :
  handleError error fallback w
  = mkWorld (set_loading false (set_errorMessage (shownError fallback error) (this w)))
            (issued w) (inputs w) (objectURLs w) (saved w).
Proof.
  destruct error as [[[[[|c d]|] [[|c' m]|]]|]]; reflexivity.
Qed.

(** A URL handed out by [createObjectURL] was not in use. *)
Lemma fresh_url_unused (urls : gmap nat Blob) : urls !! fresh (dom urls) = None.
Proof. apply not_elem_of_dom, is_fresh. Qed.

Lemma downloadItem_next_world (item : FileItem.t) (content : Blob) (w : World) :
  downloadItem_next item content w
  = mkWorld (this w) (issued w) (inputs w) (objectURLs w)
            (saved w ++ [(FileItem.name item, content)])%list.
Proof.
  unfold downloadItem_next, createObjectURL, andThen, clickDownloadLink, revokeObjectURL.
  cbn [objectURLs this issued inputs saved].
  rewrite lookup_insert_eq. cbn [objectURLs this issued inputs saved].
  rewrite delete_insert_id by apply fresh_url_unused.
  reflexivity.
Qed.

End Worlds.

(** Rewrites a method or callback applied to a world into the world it
    gives. *)
Ltac to_world :=
  cbn [step notify];
  unfold ngOnInit, navigateTo, openItem, downloadItem, deleteItem,
         loadItems_next, loadItems_error, loadPath_next, loadPath_error,
         downloadItem_error, onUploadChange_next, onUploadChange_error,
         createFolder_next, createFolder_error, deleteItem_next, deleteItem_error,
         andThen, reading, skip;
  repeat first
    [ rewrite loadItems_world
    | rewrite handleError_world
    | rewrite downloadItem_next_world
    | rewrite loadPath_resolves_current ];
  cbn [this issued inputs objectURLs saved assign assign_input subscribe
       items path currentParentId loading errorMessage newFolderName uploading
       set_items set_path set_currentParentId set_loading set_errorMessage
       set_newFolderName set_uploading].

(** ** Navigation *)

Section Navigation.

(** X1: clicking a breadcrumb segment subscribes to exactly one request, the
    listing fetch for the segment's target -- root for the segment called
    ['root'] -- makes that target the location, sets [loading] and clears
    the error message; the list and the breadcrumb on display stay until
    the response arrives.  The root segment's request has no [parentId]. *)
Theorem navigateTo_effect (item : PathItem.t) (w : World) :
  let w' := navigateTo item w in
  issued w' = (issued w ++ [(listingRequest (segmentTarget item), OnItems)])%list /\
  currentParentId (this w') = segmentTarget item /\
  loading (this w') = true /\
  errorMessage (this w') = "" /\
  items (this w') = items (this w) /\
  path (this w') = path (this w) /\
  (forall (name : string) (folder : bool),
      listingRequest (segmentTarget (PathItem.mk "root" name folder))
      = mkRequest GET "/api/items" [] json NoBody).
Proof.
  cbn zeta. unfold navigateTo, segmentTarget.
  destruct (String.eqb (PathItem.id item) "root");
    rewrite loadItems_world; repeat split; reflexivity.
Qed.

(** X2: the location is moved by navigation alone: start-up and the root
    segment lead to root, any other segment and an opened folder to their
    identifier; opening a file, every other method, every response and
    every edit of the form leave it where it is. *)
Theorem location_changes_only_by_navigation (e : Event) (w : World) :
  currentParentId (this (step e w)) =
    match e with
    | NgOnInit => None
    | NavigateTo item => segmentTarget item
    | OpenItem item =>
        if FileItem.folder item then Some (FileItem.id item)
        else currentParentId (this w)
    | _ => currentParentId (this w)
    end.
Proof.
  destruct e as [|item|item|item|target| |item|s o|text|target element].
  - to_world. reflexivity.
  - cbn [step]. unfold navigateTo, segmentTarget.
    destruct (String.eqb (PathItem.id item) "root"); to_world; reflexivity.
  - cbn [step]. unfold openItem.
    destruct (FileItem.folder item); to_world; reflexivity.
  - to_world. reflexivity.
  - cbn [step]. unfold onUploadChange.
    destruct (inputs w !! target) as [input|]; [|reflexivity].
    destruct (selectedFile input); [|reflexivity].
    unfold andThen, reading. now destruct (currentParentId _) as [[|c id]|].
  - cbn [step]. unfold createFolder, reading.
    destruct (negb (Js.truthy_string (Js.trim (newFolderName (this w)))));
      reflexivity.
  - to_world. reflexivity.
  - destruct s; destruct o as [r|err]; to_world; try reflexivity.
    destruct (currentParentId (this w)) as [[|c id]|] eqn:Hcurrent;
      cbn; exact Hcurrent.
  - reflexivity.
  - reflexivity.
Qed.

End Navigation.

(** ** Failures *)

Section Failures.

(** X4: a failed request is not retried and nothing is rolled back: the
    error callback of every operation subscribes to nothing and leaves the
    entry list, the breadcrumb, the location, the folder-name field, the
    file inputs, the object URLs and the saved files as they were. *)
Theorem failure_never_retries (s : Subscriber) (error : HttpErrorResponse.t) (w : World) :
  let w' := notify s (Error error) w in
  issued w' = issued w /\
  items (this w') = items (this w) /\
  path (this w') = path (this w) /\
  currentParentId (this w') = currentParentId (this w) /\
  newFolderName (this w') = newFolderName (this w) /\
  inputs w' = inputs w /\
  objectURLs w' = objectURLs w /\
  saved w' = saved w.
Proof. cbn zeta. destruct s; to_world; repeat split; reflexivity. Qed.

Lemma append_empty_r (s : string) : s ++ "" = s.
Proof.
  induction s as [|c s IH]; [reflexivity|].
  change (String c (s ++ "") = String c s). now rewrite IH.
Qed.

Lemma shownError_extends (fallback : string) (error : HttpErrorResponse.t) :
  exists detail : string, shownError fallback error = fallback ++ detail.
Proof.
  unfold shownError.
  destruct error as [[[[[|c d]|] [[|c' m]|]]|]];
    first [ eexists; reflexivity
          | exists ""; now rewrite append_empty_r ].
Qed.

(** X5: a failure is never silent: the message left by the error callback
    of any operation starts with that operation's fallback message and is
    not empty, whatever the response body holds. *)
Theorem failure_message_visible (s : Subscriber) (error : HttpErrorResponse.t) (w : World) :
  (exists detail : string,
      errorMessage (this (notify s (Error error) w)) = fallbackMessage s ++ detail) /\
  errorMessage (this (notify s (Error error) w)) <> "".
Proof.
  assert (Hmsg : errorMessage (this (notify s (Error error) w))
                 = shownError (fallbackMessage s) error)
    by (destruct s; to_world; reflexivity).
  rewrite Hmsg.
  destruct (shownError_extends (fallbackMessage s) error) as [detail Hdetail].
  split; [now exists detail|].
  rewrite Hdetail. destruct s; discriminate.
Qed.

End Failures.

(** ** What a session keeps *)

Section Sessions.

Lemma run_app (before after : list Event) (w : World) :
  run (before ++ after)%list w = run after (run before w).
Proof. unfold run. apply fold_left_app. Qed.

Lemma run_cons (e : Event) (events : list Event) (w : World) :
  run (e :: events) w = run events (step e w).
Proof. reflexivity. Qed.

(** X3: a successful download offers the content for saving under the
    entry's display name and releases the object URL it made for that: the
    set of live object URLs is the same as before, whatever it held; the
    component, the requests and the inputs are untouched. *)
Theorem download_success_saves_and_releases
        (item : FileItem.t) (content : Blob) (w : World) :
  let w' := notify (OnDownload item) (Next content) w in
  saved w' = (saved w ++ [(FileItem.name item, content)])%list /\
  objectURLs w' = objectURLs w /\
  this w' = this w /\
  issued w' = issued w /\
  inputs w' = inputs w.
Proof. cbn zeta. to_world. repeat split; reflexivity. Qed.

Lemma step_objectURLs (e : Event) (w : World) :
  objectURLs (step e w) = objectURLs w.
Proof.
  destruct e as [|item|item|item|target| |item|s o|text|target element];
    try (to_world; reflexivity).
  - cbn [step]. unfold navigateTo.
    destruct (String.eqb (PathItem.id item) "root"); to_world; reflexivity.
  - cbn [step]. unfold openItem.
    destruct (FileItem.folder item); to_world; reflexivity.
  - cbn [step]. unfold onUploadChange.
    destruct (inputs w !! target) as [input|]; [|reflexivity].
    destruct (selectedFile input); reflexivity.
  - cbn [step]. unfold createFolder, reading.
    destruct (negb (Js.truthy_string (Js.trim (newFolderName (this w)))));
      reflexivity.
  - destruct s; destruct o as [r|err]; to_world; try reflexivity.
    destruct (currentParentId (this w)) as [[|c id]|]; reflexivity.
Qed.

(** X10: no object URL outlives the callback that made it: after any
    sequence of method calls, responses and form edits the live object URLs
    are those the session started with. *)
Theorem object_urls_never_leak (events : list Event) (w : World) :
  objectURLs (run events w) = objectURLs w.
Proof.
  revert w. induction events as [|e events IH]; intros w; [reflexivity|].
  rewrite run_cons, IH. apply step_objectURLs.
Qed.

Lemma step_issued (e : Event) (w : World) :
  exists added : list (HttpRequest * Subscriber),
    issued (step e w) = (issued w ++ added)%list /\ (length added <= 1)%nat.
Proof.
  assert (Hnone : forall v : World, issued v = (issued v ++ [])%list)
    by (intros v; now rewrite app_nil_r).
  destruct e as [|item|item|item|target| |item|s o|text|target element].
  - to_world. eexists; split; [reflexivity | cbn; lia].
  - cbn [step]. unfold navigateTo.
    destruct (String.eqb (PathItem.id item) "root"); to_world;
      (eexists; split; [reflexivity | cbn; lia]).
  - cbn [step]. unfold openItem.
    destruct (FileItem.folder item); to_world;
      (eexists; split; [reflexivity | cbn; lia]).
  - to_world. eexists; split; [reflexivity | cbn; lia].
  - cbn [step]. unfold onUploadChange.
    destruct (inputs w !! target) as [input|];
      [|exists []; split; [apply Hnone | cbn; lia]].
    destruct (selectedFile input);
      [|exists []; split; [apply Hnone | cbn; lia]].
    unfold andThen, reading. cbn.
    eexists; split; [reflexivity | cbn; lia].
  - cbn [step]. unfold createFolder, reading.
    destruct (negb (Js.truthy_string (Js.trim (newFolderName (this w))))).
    + exists []; split; [apply Hnone | cbn; lia].
    + unfold andThen, reading. cbn. eexists; split; [reflexivity | cbn; lia].
  - to_world. eexists; split; [reflexivity | cbn; lia].
  - destruct s; destruct o as [r|err]; to_world;
      try (exists []; split; [apply Hnone | cbn; lia]);
      try (eexists; split; [reflexivity | cbn; lia]).
    destruct (currentParentId (this w)) as [[|c id]|]; cbn;
      first [ exists []; split; [apply Hnone | cbn; lia]
            | eexists; split; [reflexivity | cbn; lia] ].
  - exists []; split; [cbn; now rewrite app_nil_r | cbn; lia].
  - exists []; split; [cbn; now rewrite app_nil_r | cbn; lia].
Qed.

(** X9: requests are only ever added, at most one per event: after any
    session the requests issued before it are still there, in order, and
    followed by no more new ones than there were events.  Nothing is
    cancelled and nothing is sent twice for one event. *)
Theorem requests_only_grow (events : list Event) (w : World) :
  exists added : list (HttpRequest * Subscriber),
    issued (run events w) = (issued w ++ added)%list /\
    (length added <= length events)%nat.
Proof.
  revert w. induction events as [|e events IH]; intros w.
  - exists []. split; [now rewrite app_nil_r | cbn; lia].
  - rewrite run_cons.
    destruct (step_issued e w) as (first & Hfirst & Hone).
    destruct (IH (step e w)) as (rest & Hrest & Hlen).
    exists (first ++ rest)%list. split.
    + now rewrite Hrest, Hfirst, app_assoc.
    + rewrite length_app. cbn [length]. lia.
Qed.

Lemma step_loading_excludes_error (e : Event) (w : World) :
  loading (this w) = false \/ errorMessage (this w) = "" ->
  loading (this (step e w)) = false \/ errorMessage (this (step e w)) = "".
Proof.
  intros Hw.
  destruct e as [|item|item|item|target| |item|s o|text|target element].
  - to_world. now right.
  - cbn [step]. unfold navigateTo.
    destruct (String.eqb (PathItem.id item) "root"); to_world; now right.
  - cbn [step]. unfold openItem.
    destruct (FileItem.folder item); to_world; now right.
  - to_world. now right.
  - cbn [step]. unfold onUploadChange.
    destruct (inputs w !! target) as [input|]; [|exact Hw].
    destruct (selectedFile input); [|exact Hw].
    unfold andThen, reading. cbn. now right.
  - cbn [step]. unfold createFolder, reading.
    destruct (negb (Js.truthy_string (Js.trim (newFolderName (this w)))));
      [exact Hw|].
    unfold andThen, reading. cbn. now right.
  - to_world. now right.
  - destruct s; destruct o as [r|err]; to_world;
      try (now left); try (now right); try exact Hw.
    destruct (currentParentId (this w)) as [[|c id]|]; cbn; now left.
  - exact Hw.
  - exact Hw.
Qed.

(** X8: from start-up on, [loading] and an error message never show
    together: after any sequence of method calls, responses and form edits
    either [loading] is false or the error message is empty. *)
Theorem loading_excludes_error (events : list Event) :
  loading (this (run events initial)) = false \/
  errorMessage (this (run events initial)) = "".
Proof.
  assert (Hkeep : forall (es : list Event) (w : World),
             loading (this w) = false \/ errorMessage (this w) = "" ->
             loading (this (run es w)) = false \/ errorMessage (this (run es w)) = "").
  { induction es as [|e es IH]; intros w Hw; [exact Hw|].
    rewrite run_cons. apply IH, step_loading_excludes_error, Hw. }
  apply Hkeep. now left.
Qed.

End Sessions.

(** ** The display and the flags *)

Section Display.

(** X6: the entry list and the breadcrumb change only when a listing or a
    path fetch succeeds: every method call, every failure, every other
    success and every edit of the form leave both as they were.  In
    particular no mutation is applied to the list before the server has
    answered. *)
Theorem display_changes_only_on_success (e : Event) (w : World) :
  refreshesDisplay e = false ->
  items (this (step e w)) = items (this w) /\
  path (this (step e w)) = path (this w).
Proof.
  intros Hquiet.
  destruct e as [|item|item|item|target| |item|s o|text|target element].
  - to_world. now split.
  - cbn [step]. unfold navigateTo.
    destruct (String.eqb (PathItem.id item) "root"); to_world; now split.
  - cbn [step]. unfold openItem.
    destruct (FileItem.folder item); to_world; now split.
  - to_world. now split.
  - cbn [step]. unfold onUploadChange.
    destruct (inputs w !! target) as [input|]; [|now split].
    destruct (selectedFile input); now split.
  - cbn [step]. unfold createFolder, reading.
    destruct (negb (Js.truthy_string (Js.trim (newFolderName (this w)))));
      now split.
  - to_world. now split.
  - destruct s; destruct o as [r|err]; try discriminate Hquiet;
      to_world; now split.
  - now split.
  - now split.
Qed.

Lemma display_changes_only_on_success_witness :
  refreshesDisplay (DeleteItem someFile) = false /\
  items (this (step (DeleteItem someFile) withPickedFile)) = items (this withPickedFile) /\
  path (this (step (DeleteItem someFile) withPickedFile)) = path (this withPickedFile).
Proof.
  split; [reflexivity|].
  apply (display_changes_only_on_success (DeleteItem someFile) withPickedFile).
  reflexivity.
Defined.

(** X7: [uploading] belongs to the upload: it becomes true when
    [onUploadChange] finds a selected file, false when the upload's
    response arrives, successful or not, and no other event touches it. *)
Theorem uploading_owned_by_upload (e : Event) (w : World) :
  uploading (this (step e w)) =
    match e with
    | UploadChange target =>
        match inputs w !! target ≫= selectedFile with
        | Some _ => true
        | None => uploading (this w)
        end
    | Notify (OnUpload _) _ => false
    | _ => uploading (this w)
    end.
Proof.
  destruct e as [|item|item|item|target| |item|s o|text|target element].
  - to_world. reflexivity.
  - cbn [step]. unfold navigateTo.
    destruct (String.eqb (PathItem.id item) "root"); to_world; reflexivity.
  - cbn [step]. unfold openItem.
    destruct (FileItem.folder item); to_world; reflexivity.
  - to_world. reflexivity.
  - cbn [step]. unfold onUploadChange.
    destruct (inputs w !! target) as [input|]; [|reflexivity].
    cbn [mbind option_bind]. destruct (selectedFile input); reflexivity.
  - cbn [step]. unfold createFolder, reading.
    destruct (negb (Js.truthy_string (Js.trim (newFolderName (this w)))));
      reflexivity.
  - to_world. reflexivity.
  - destruct s; destruct o as [r|err]; to_world; try reflexivity.
    destruct (currentParentId (this w)) as [[|c id]|]; reflexivity.
  - reflexivity.
  - reflexivity.
Qed.

(** X11: a delete that succeeds, followed by the listing it asks for, shows
    exactly what the server lists: the entries are the response's, the
    location is the one the delete was issued at, [loading] is off and no
    error is shown; on the way the component sent the DELETE for the
    entry, then the listing fetch for that location, and nothing before or
    between them. *)
Theorem delete_round_trip (item : FileItem.t) (response : ItemsResponse.t) (w : World) :
  let w' := run [DeleteItem item; Notify OnDelete (Next tt);
                 Notify OnItems (Next response)] w in
  items (this w') = Js.nullish (ItemsResponse.items response) [] /\
  currentParentId (this w') = currentParentId (this w) /\
  loading (this w') = false /\
  errorMessage (this w') = "" /\
  exists last : list (HttpRequest * Subscriber),
    issued w'
    = (issued w ++
       [(mkRequest DELETE ("/api/items/" ++ FileItem.id item) [] json NoBody, OnDelete);
        (listingRequest (currentParentId (this w)), OnItems)] ++ last)%list /\
    last = (if isRoot (currentParentId (this w)) then []
            else [(pathRequest (Js.nullish (currentParentId (this w)) ""), OnPath)]).
Proof.
  cbn zeta. unfold run. cbn [fold_left]. to_world.
  destruct (currentParentId (this w)) as [[|c id]|] eqn:Hcurrent; cbn;
    rewrite ?Hcurrent; repeat split;
    (eexists; split; [|reflexivity]); now rewrite <- !app_assoc.
Qed.

End Display.

(** ** Requests of the mutations *)

Section Requests.

Lemma trim_start_first (s : string) (c : ascii) :
  firstChar (Js.trim_start s) = Some c -> Js.is_white_space c = false.
Proof.
  induction s as [|a s IH]; cbn [Js.trim_start]; [discriminate|].
  destruct (Js.is_white_space a) eqn:Ha; [exact IH|].
  cbn [firstChar]. intros [= <-]. exact Ha.
Qed.

Lemma trim_end_first (s : string) (c : ascii) :
  firstChar (Js.trim_end s) = Some c -> firstChar s = Some c.
Proof.
  destruct s as [|a s]; cbn [Js.trim_end]; [discriminate|].
  destruct (Js.trim_end s).
  - destruct (Js.is_white_space a); [discriminate | exact (fun H => H)].
  - exact (fun H => H).
Qed.

Lemma trim_end_last (s : string) (c : ascii) :
  lastChar (Js.trim_end s) = Some c -> Js.is_white_space c = false.
Proof.
  induction s as [|a s IH]; cbn [Js.trim_end]; [discriminate|].
  destruct (Js.trim_end s) as [|b kept].
  - destruct (Js.is_white_space a) eqn:Ha; [discriminate|].
    cbn [lastChar]. intros [= <-]. exact Ha.
  - exact IH.
Qed.

(** The trimmed string neither starts nor ends with white space. *)
Lemma trim_edges (s : string) (c : ascii) :
  firstChar (Js.trim s) = Some c \/ lastChar (Js.trim s) = Some c ->
  Js.is_white_space c = false.
Proof.
  unfold Js.trim. intros [Hfirst|Hlast].
  - apply (trim_start_first s), trim_end_first, Hfirst.
  - apply (trim_end_last _ _ Hlast).
Qed.

(** X12: with a folder name that is not blank, [createFolder] subscribes to
    exactly one request: a POST to [/api/items] whose body carries the
    trimmed name, [folder: true] and the current location as [parentId]
    (null at root).  The name sent is not empty and neither starts nor ends
    with white space; the error message is cleared and the field keeps what
    the user typed. *)
Theorem createFolder_sends_trimmed_name (w : World) :
  Js.trim (newFolderName (this w)) <> "" ->
  let sent := Js.trim (newFolderName (this w)) in
  issued (createFolder w)
  = (issued w ++
     [(mkRequest POST "/api/items" [] json
                 (FolderBody sent true (currentParentId (this w))), OnCreate)])%list /\
  (forall c : ascii,
      firstChar sent = Some c \/ lastChar sent = Some c -> Js.is_white_space c = false) /\
  errorMessage (this (createFolder w)) = "" /\
  newFolderName (this (createFolder w)) = newFolderName (this w).
Proof.
  intros Hname. cbn zeta. unfold createFolder, reading.
  destruct (Js.trim (newFolderName (this w))) as [|c rest] eqn:Htrim;
    [congruence|].
  cbn [Js.truthy_string negb]. rewrite <- Htrim.
  split; [reflexivity|]. split; [|split; reflexivity].
  intros a. apply trim_edges.
Qed.

Lemma createFolder_sends_trimmed_name_witness :
  let w := step (TypeFolderName "  docs ") initial in
  Js.trim (newFolderName (this w)) <> "" /\
  issued (createFolder w)
  = [(mkRequest POST "/api/items" [] json (FolderBody "docs" true None), OnCreate)].
Proof.
  cbn zeta. split; [discriminate|].
  destruct (createFolder_sends_trimmed_name (step (TypeFolderName "  docs ") initial))
    as (Hissued & _); [discriminate|].
  exact Hissued.
Defined.

(** X13: when files are selected, [onUploadChange] uploads the first one
    only: it subscribes to exactly one request, a POST to [/api/items]
    with form data holding that file under [files] and, unless the
    location is root, the location under [parentId]; the other selected
    files are not sent.  [uploading] is set, the error message cleared and
    the input left as it is. *)
Theorem upload_sends_first_file
        (target : ElementRef) (file : File) (others : list File) (shown : string)
        (w : World) :
  inputs w !! target = Some (mkInput (Some (file :: others)) shown) ->
  let w' := onUploadChange target w in
  issued w'
  = (issued w ++
     [(mkRequest POST "/api/items" [] json
         (FormData (("files", FormFile file) ::
                    match currentParentId (this w) with
                    | Some id => if isRoot (Some id) then [] else [("parentId", FormText id)]
                    | None => []
                    end)),
       OnUpload target)])%list /\
  uploading (this w') = true /\
  errorMessage (this w') = "" /\
  inputs w' = inputs w.
Proof.
  intros Hinput. cbn zeta. unfold onUploadChange. rewrite Hinput.
  cbn [selectedFile files Js.nullish head]. unfold andThen, reading.
  destruct (currentParentId (this w)) as [[|c id]|] eqn:Hcurrent;
    cbn; rewrite ?Hcurrent; repeat split; reflexivity.
Qed.

Lemma upload_sends_first_file_witness :
  let two := mkInput (Some [mkFile "a.txt" "abc"; mkFile "b.txt" "xyz"]) "a.txt" in
  let w := step (ChooseFiles 0%nat two) initial in
  inputs w !! 0%nat = Some two /\
  issued (onUploadChange 0%nat w)
  = [(mkRequest POST "/api/items" [] json
        (FormData [("files", FormFile (mkFile "a.txt" "abc"))]), OnUpload 0%nat)].
Proof.
  cbn zeta. split; [reflexivity|].
  destruct (upload_sends_first_file 0%nat (mkFile "a.txt" "abc") [mkFile "b.txt" "xyz"]
              "a.txt"
              (step (ChooseFiles 0%nat
                       (mkInput (Some [mkFile "a.txt" "abc"; mkFile "b.txt" "xyz"]) "a.txt"))
                    initial))
    as (Hissued & _); [reflexivity|].
  exact Hissued.
Defined.

End Requests.

(** ** Size formatting by magnitude *)

Section Magnitude.

Lemma Qle_bool_div1024 (a x : Q) : Qle_bool a (x / 1024) = Qle_bool (a * 1024) x.
Proof.
  destruct a as [an ad], x as [xn xd].
  unfold Qle_bool, Qdiv, Qmult, Qinv. cbn [Qnum Qden].
  rewrite !Pos2Z.inj_mul. f_equal; ring.
Qed.

(** The index the loop of [formatSize] stops at depends on the magnitude of
    the size alone. *)
Lemma unitIndexOf_magnitude (x : Q) : unitIndexOf x = magnitudeIndex x.
Proof.
  unfold unitIndexOf, magnitudeIndex, dividedBy1024. cbv [Nat.iter nat_rect].
  now rewrite !Qle_bool_div1024.
Qed.

Lemma truthy_number_nonzero (x : Q) : ~ x == 0 -> Js.truthy_number x = true.
Proof.
  intros Hx. unfold Js.truthy_number. apply negb_true_iff, Z.eqb_neq.
  intros Hnum. apply Hx. unfold Qeq. cbn [Qnum Qden]. lia.
Qed.

(** X15: for a size that is not zero the unit and the number of decimals
    follow from its magnitude: B below 1024, KB below 1024^2, MB below
    1024^3 and GB from there on, with the size divided by the unit's size
    (1, 1024, 1024^2, 1024^3); one decimal is printed exactly when the unit
    is not B and the size is below ten units. *)
Theorem formatSize_by_magnitude (x : Q) :
  ~ x == 0 ->
  let k := magnitudeIndex x in
  let scaled := dividedBy1024 k x in
  scaled == x / unitSize k /\
  formatSize (Some x)
  = Js.toFixed scaled
      (if Qle_bool (10 * unitSize k) x || (k =? 0)%nat then 0%nat else 1%nat)
    ++ " " ++
    match k with
    | 0%nat => "B"
    | 1%nat => "KB"
    | 2%nat => "MB"
    | _ => "GB"
    end.
Proof.
  intros Hx. cbn zeta. split.
  - unfold magnitudeIndex, dividedBy1024, unitSize.
    repeat match goal with |- context [if ?b then _ else _] => destruct b end;
      cbv [Nat.iter nat_rect].
    + change (inject_Z (1024 ^ Z.of_nat 0)) with (1 # 1)%Q. field.
    + change (inject_Z (1024 ^ Z.of_nat 1)) with (1024 # 1)%Q. field.
    + change (inject_Z (1024 ^ Z.of_nat 2)) with (1048576 # 1)%Q. field.
    + change (inject_Z (1024 ^ Z.of_nat 3)) with (1073741824 # 1)%Q. field.
  - unfold formatSize. rewrite (truthy_number_nonzero x Hx). cbn [negb].
    rewrite scale_closed_form, unitIndexOf_magnitude.
    unfold magnitudeIndex, dividedBy1024, unitSize.
    destruct (Qle_bool 1024 x); cbn [negb];
      [destruct (Qle_bool 1048576 x); cbn [negb];
       [destruct (Qle_bool 1073741824 x); cbn [negb]|]|];
      cbv [Nat.iter nat_rect]; rewrite ?Qle_bool_div1024; reflexivity.
Qed.

Lemma formatSize_by_magnitude_witness :
  ~ inject_Z 1536 == 0 /\
  magnitudeIndex (inject_Z 1536) = 1%nat /\
  formatSize (bytes 1536) = "1.5 KB".
Proof.
  split; [discriminate|]. split; [reflexivity|].
  destruct (formatSize_by_magnitude (inject_Z 1536)) as [_ Hshown]; [discriminate|].
  exact Hshown.
Defined.

Lemma nearest_integer (n : Z) : Js.nearest (inject_Z n) 0 = n.
Proof.
  unfold Js.nearest, inject_Z. cbn [Qnum Qden Z.of_nat].
  symmetry. apply (Z.div_unique _ _ n 1); [lia|].
  rewrite Z.pow_0_r. lia.
Qed.

(** X14: a whole byte count from 1 to 1023 is shown exactly: its decimal
    digits followed by [" B"], with no scaling and no rounding. *)
Theorem formatSize_small_counts_exact (n : Z) :
  (0 < n < 1024)%Z ->
  formatSize (bytes n) = Js.digits n ++ " B".
Proof.
  intros Hn.
  assert (Hx : ~ inject_Z n == 0).
  { unfold Qeq, inject_Z. cbn [Qnum Qden]. lia. }
  assert (Hbelow : Qle_bool 1024 (inject_Z n) = false).
  { unfold Qle_bool, inject_Z. cbn [Qnum Qden]. apply Z.leb_gt. lia. }
  assert (Hsign : Qle_bool 0 (inject_Z n) = true).
  { unfold Qle_bool, inject_Z. cbn [Qnum Qden]. apply Z.leb_le. lia. }
  unfold bytes, formatSize. rewrite (truthy_number_nonzero _ Hx). cbn [negb].
  cbn [length units scale]. unfold keeps_scaling. rewrite Hbelow. cbn [andb].
  cbn [Nat.eqb]. rewrite orb_true_r.
  unfold Js.toFixed. cbv zeta. rewrite Hsign. cbn [negb].
  rewrite nearest_integer. reflexivity.
Qed.

Lemma formatSize_small_counts_exact_witness :
  (0 < 512 < 1024)%Z /\ formatSize (bytes 512) = "512 B".
Proof.
  split; [lia|]. apply (formatSize_small_counts_exact 512). lia.
Defined.

End Magnitude.

(** ** Navigation round trips *)

Section RoundTrips.

(** X16: opening a folder and receiving first its listing and then its
    ancestor chain leaves the component showing that folder: the location
    is the folder's identifier, the entries are the listing's, the
    breadcrumb is the chain's (root-only if the chain is missing),
    [loading] is off, no error is shown, and exactly two requests went
    out, the listing fetch and then the path fetch for that folder. *)
Theorem open_folder_round_trip
        (item : FileItem.t) (listing : ItemsResponse.t) (chain : PathResponse.t)
        (w : World) :
  FileItem.folder item = true ->
  FileItem.id item <> "" ->
  let w' := run [OpenItem item; Notify OnItems (Next listing);
                 Notify OnPath (Next chain)] w in
  currentParentId (this w') = Some (FileItem.id item) /\
  items (this w') = Js.nullish (ItemsResponse.items listing) [] /\
  path (this w') = Js.nullish (PathResponse.items chain) rootPath /\
  loading (this w') = false /\
  errorMessage (this w') = "" /\
  issued w'
  = (issued w ++ [(listingRequest (Some (FileItem.id item)), OnItems);
                  (pathRequest (FileItem.id item), OnPath)])%list.
Proof.
  intros Hfolder Hid. cbn zeta. unfold run. cbn [fold_left step].
  unfold openItem. rewrite Hfolder.
  destruct (FileItem.id item) as [|c rest]; [congruence|].
  to_world. cbn. repeat split. now rewrite <- app_assoc.
Qed.

Lemma open_folder_round_trip_witness :
  let w' := run [OpenItem someFolder;
                 Notify OnItems (Next (ItemsResponse.mk (Some [someFile])));
                 Notify OnPath (Next (PathResponse.mk None))] initial in
  FileItem.folder someFolder = true /\
  FileItem.id someFolder <> "" /\
  currentParentId (this w') = Some "d1" /\
  items (this w') = [someFile] /\
  path (this w') = rootPath.
Proof.
  cbn zeta. split; [reflexivity|]. split; [discriminate|].
  destruct (open_folder_round_trip someFolder (ItemsResponse.mk (Some [someFile]))
              (PathResponse.mk None) initial)
    as (Hcurrent & Hitems & Hpath & _); [reflexivity | discriminate |].
  split; [exact Hcurrent|]. split; [exact Hitems | exact Hpath].
Defined.

(** X17: a navigation whose listing fails has still moved: the location is
    the one navigated to, while the entries and the breadcrumb on display
    are those shown before; [loading] is off and no further request went
    out. *)
Theorem navigation_failure_keeps_new_location
        (location : option ItemId) (error : HttpErrorResponse.t) (w : World) :
  let w' := notify OnItems (Error error) (loadItems location w) in
  currentParentId (this w') = location /\
  items (this w') = items (this w) /\
  path (this w') = path (this w) /\
  loading (this w') = false /\
  issued w' = (issued w ++ [(listingRequest location, OnItems)])%list.
Proof. cbn zeta. to_world. repeat split; reflexivity. Qed.

End RoundTrips.
